(** * electionguard.serialize: the padding codec and the raw (de)serializers

    A shallow embedding of [src/electionguard/serialize.py].  Python [int]
    is [Z], [bytes] is [list byte], [str] is [string] (its characters read as
    code points below 256; [json.dumps] writes ASCII only), a call that may
    raise is a computation in the [result] monad, and the [IntEnum]
    [PaddedDataSize] is an inductive type with its integer value. *)

From Stdlib Require Import ZArith List Lia Bool String Ascii DecimalString.
From Stdlib Require Import Strings.Byte.
Import ListNotations.

Local Open Scope Z_scope.

(** ** Exceptions and the result monad *)

(** The exception classes that the module raises or lets through. *)
Inductive exception : Type :=
| TruncationError (msg : string)
| OverflowError (msg : string)
| JSONDecodeError (msg : string)
| UnicodeDecodeError (msg : string)
| DaciteError (msg : string)
| TypeError (msg : string).

Inductive result (A : Type) : Type :=
| Ok (a : A)
| Raise (e : exception).

Arguments Ok {A} a.
Arguments Raise {A} e.

Definition bind {A B : Type} (c : result A) (k : A -> result B) : result B :=
  match c with
  | Ok a => k a
  | Raise e => Raise e
  end.

Declare Scope py_scope.
Delimit Scope py_scope with py.
Notation "x <- c ;; k" := (bind c (fun x => k))
  (at level 61, c at next level, right associativity) : py_scope.
Local Open Scope py_scope.

(** ** Python primitives on [bytes] and [int] *)

Definition bytes : Type := list byte.

(** [len(b)] *)
Definition len {A : Type} (l : list A) : Z := Z.of_nat (List.length l).

(** Index adjustment of a slice bound, as [PySlice_AdjustIndices] does for a
    step of 1: a negative bound counts from the end, and every bound is
    clamped to [0 .. len]. *)
Definition adjust_index (n i : Z) : Z :=
  if i <? 0 then Z.max 0 (i + n) else Z.min i n.

(** [l[start:stop]]; [None] is an omitted bound. *)
Definition slice {A : Type} (l : list A) (start stop : option Z) : list A :=
  let n := len l in
  let lo := match start with None => 0 | Some i => adjust_index n i end in
  let hi := match stop with None => n | Some i => adjust_index n i end in
  firstn (Z.to_nat (hi - lo)) (skipn (Z.to_nat lo) l).

(** [b * k] on a bytes object: [k] copies, none when [k <= 0]. *)
Fixpoint repeat_bytes (b : bytes) (k : nat) : bytes :=
  match k with
  | O => []
  | S k' => b ++ repeat_bytes b k'
  end.

Definition bytes_mul (b : bytes) (k : Z) : bytes := repeat_bytes b (Z.to_nat k).

(** The byte whose value is [n mod 256]. *)
Definition byte_of_Z (n : Z) : byte :=
  match Byte.of_N (Z.to_N (n mod 256)) with
  | Some b => b
  | None => x00
  end.

Definition Z_of_byte (b : byte) : Z := Z.of_N (Byte.to_N b).

Inductive byteorder : Type := big | little.

(** The [length] base-256 digits of [n], most significant first. *)
Fixpoint be_digits (length : nat) (n : Z) : bytes :=
  match length with
  | O => []
  | S k => be_digits k (n / 256) ++ [byte_of_Z n]
  end.

(** [n.to_bytes(length, byteorder=order)] (unsigned): [OverflowError] on a
    negative [n] and on an [n] that does not fit in [length] bytes. *)
Definition int_to_bytes (n : Z) (length : nat) (order : byteorder) : result bytes :=
  if n <? 0 then Raise (OverflowError "can't convert negative int to unsigned")
  else if 256 ^ Z.of_nat length <=? n then Raise (OverflowError "int too big to convert")
  else Ok (match order with
           | big => be_digits length n
           | little => rev (be_digits length n)
           end).

(** [int.from_bytes(b, byteorder=order)] (unsigned), of any length. *)
Definition int_from_bytes (b : bytes) (order : byteorder) : Z :=
  fold_left (fun acc x => acc * 256 + Z_of_byte x)
            (match order with big => b | little => rev b end) 0.

(** [s.encode("utf-8")] for a [str] whose code points are below 256 (the
    range of [ascii]): one byte below 128, two bytes from 128 on. *)
Fixpoint utf8_encode (s : string) : bytes :=
  match s with
  | EmptyString => []
  | String c s' =>
      let n := Z.of_N (N_of_ascii c) in
      (if n <? 128 then [byte_of_Z n]
       else [byte_of_Z (192 + n / 64); byte_of_Z (128 + n mod 64)])
      ++ utf8_encode s'
  end.

(** ** Constants of the module *)

(** Modelled from the spec: [BYTE_ORDER] and [BYTE_ENCODING] are imported
    from [electionguard.utils], which is not part of the sources at hand; the
    specification fixes a big-endian indicator and UTF-8 text. *)
Definition BYTE_ORDER : byteorder := big.

Inductive encoding : Type := utf_8.

Definition BYTE_ENCODING : encoding := utf_8.

Definition str_encode (s : string) (e : encoding) : bytes :=
  match e with utf_8 => utf8_encode s end.

Definition _PAD_BYTE : bytes := [x00].

Definition PAD_INDICATOR_SIZE : Z := 2.

Definition _indent : Z := 2.

(** [class PaddedDataSize(IntEnum)]: its members and their integer values. *)
Inductive PaddedDataSize : Type :=
| Bytes_512.

Definition PaddedDataSize_value (s : PaddedDataSize) : Z :=
  match s with
  | Bytes_512 => 512 - PAD_INDICATOR_SIZE
  end.

Coercion PaddedDataSize_value : PaddedDataSize >-> Z.

(** ** The padding codec *)

Definition truncation_message : string :=
  "Padded data exceeds allowed padded data size of {size}.".

(** [_add_padding(message, size, allow_truncation)].  [size] is the integer
    the enumeration member stands for. *)
Definition _add_padding (message : bytes) (size : Z) (allow_truncation : bool)
  : result bytes :=
  let message_length := len message in
  message_length <-
    (if size <? message_length then
       if allow_truncation then Ok size
       else Raise (TruncationError truncation_message)
     else Ok message_length) ;;
  let padding_length := size - message_length in
  leading_byte <- int_to_bytes padding_length (Z.to_nat PAD_INDICATOR_SIZE) BYTE_ORDER ;;
  let padded :=
    leading_byte ++ slice message None (Some message_length)
                 ++ bytes_mul _PAD_BYTE padding_length in
  Ok padded.

(** [_remove_padding(padded, size)]: no statement of it can raise. *)
Definition _remove_padding (padded : bytes) (size : Z) : result bytes :=
  let padding_length :=
    int_from_bytes (slice padded None (Some PAD_INDICATOR_SIZE)) BYTE_ORDER in
  let message_end := size + PAD_INDICATOR_SIZE - padding_length in
  Ok (slice padded (Some PAD_INDICATOR_SIZE) (Some message_end)).

(** The vocabulary of the specification: the capacity of a size class is
    the value of the enumeration member, and the block it yields is longer by
    the indicator. *)
Definition capacity (size : PaddedDataSize) : Z := size.

Definition block_size (size : PaddedDataSize) : Z := size + PAD_INDICATOR_SIZE.

(** [b"abc"] *)
Definition abc : bytes := list_byte_of_string "abc".

(** ** The raw serializers *)

(** [Union[str, bytes]] *)
Inductive raw : Type :=
| raw_str (s : string)
| raw_bytes (b : bytes).

(** The classes that the module names, and any other class by its name. *)
Inductive pytype : Type :=
| datetime
| BigInteger
| BallotBoxState
| ElementModP
| ElementModQ
| ElectionType
| ReportingUnitType
| VoteVariationType
| SpecVersion
| ProofUsage
| ContestErrorType
| class_named (name : string).

(** [dacite.Config], with the two fields that the module sets. *)
Record Config (object : Type) : Type := {
  cast : list pytype;
  type_hooks : list (pytype * (object -> result object))
}.

Arguments cast {object} c.
Arguments type_hooks {object} c.

(** The functions of [json], [pydantic], [dacite] and [dateutil] that the
    module calls.  They are libraries outside the repository: the module is
    modelled over any behaviour of theirs. *)
Class Libraries : Type := {
  object : Type;
  json_loads : raw -> result object;
  json_dumps : object -> Z -> (object -> result object) -> result string;
  pydantic_encoder : object -> result object;
  parser_parse : object -> result object;
  from_dict : pytype -> object -> Config object -> result object
}.

Section Serializer.

Context {lib : Libraries}.

Definition _config : Config object := {|
  cast := [ datetime; BigInteger; ContestErrorType; ElementModP; ElementModQ;
            ElectionType; BallotBoxState; ElectionType; ReportingUnitType;
            SpecVersion; VoteVariationType; ProofUsage ];
  type_hooks := [ (datetime, parser_parse) ]
|}.

(** [from_raw(type_, raw)]: the argument [json.loads(raw)] is evaluated
    before [from_dict] is called. *)
Definition from_raw (type_ : pytype) (raw_ : raw) : result object :=
  data <- json_loads raw_ ;;
  from_dict type_ data _config.

(** [to_raw(data)] *)
Definition to_raw (data : object) : result string :=
  json_dumps data _indent pydantic_encoder.

(** [padded_encode(data, size)]: [_add_padding] is called with two
    arguments, so [allow_truncation] has its default, [False]. *)
Definition padded_encode (data : object) (size : PaddedDataSize) : result bytes :=
  text <- to_raw data ;;
  _add_padding (str_encode text BYTE_ENCODING) size false.

(** [padded_decode(type_, padded_data, size)] *)
Definition padded_decode (type_ : pytype) (padded_data : bytes) (size : PaddedDataSize)
  : result object :=
  message <- _remove_padding padded_data size ;;
  from_raw type_ (raw_bytes message).

End Serializer.

(** *** An instance of the libraries, to run the serializers on examples

    The documents are restricted to one Python integer: [dumps] writes it in
    decimal, as [json.dumps] writes an [int], and [loads] reads a canonical
    decimal numeral back and refuses every other text.  No class is built
    from an integer, so [from_dict] always fails. *)
Module IntDocuments.

Definition dumps (data : Z) (indent : Z) (default : Z -> result Z) : result string :=
  Ok (NilZero.string_of_int (Z.to_int data)).

Definition loads_str (s : string) : result Z :=
  match NilZero.int_of_string s with
  | Some d =>
      if String.eqb (NilZero.string_of_int (Z.to_int (Z.of_int d))) s
      then Ok (Z.of_int d)
      else Raise (JSONDecodeError "Expecting value")
  | None => Raise (JSONDecodeError "Expecting value")
  end.

Definition loads (raw_ : raw) : result Z :=
  match raw_ with
  | raw_str s => loads_str s
  | raw_bytes b => loads_str (string_of_list_byte b)
  end.

Definition encoder (o : Z) : result Z :=
  Raise (TypeError "Object of type 'int' is not JSON serializable").

Definition parse (o : Z) : result Z :=
  Raise (TypeError "Parser must be a string or character stream, not int").

Definition build (type_ : pytype) (data : Z) (config : Config Z) : result Z :=
  Raise (TypeError "'int' object is not subscriptable").

Definition libraries : Libraries := {|
  object := Z;
  json_loads := loads;
  json_dumps := dumps;
  pydantic_encoder := encoder;
  parser_parse := parse;
  from_dict := build
|}.

End IntDocuments.

(** ** Reading a list of values from a file *)

(** What the file readers take from outside the module: [open] for reading,
    [json.load] on the open file, and the iteration [for item in data] over
    the loaded value, which fails at once on a value that is not iterable and
    otherwise yields finitely many items. *)
Class FileLibraries {lib : Libraries} : Type := {
  TextIOWrapper : Type;
  open_read : string -> encoding -> result TextIOWrapper;
  json_load : TextIOWrapper -> result object;
  py_iter : object -> result (list object)
}.

Section FileReaders.

Context {lib : Libraries} {files : FileLibraries}.

(** The loop [for item in data: ls.append(from_dict(type_, item, _config))],
    run on the items left, from the list [ls] built so far. *)
Fixpoint append_each (type_ : pytype) (items : list object) (ls : list object)
  : result (list object) :=
  match items with
  | [] => Ok ls
  | item :: rest =>
      v <- from_dict type_ item _config ;;
      append_each type_ rest (ls ++ [v])
  end.

(** [from_list_in_file_wrapper(type_, file)] *)
Definition from_list_in_file_wrapper (type_ : pytype) (file : TextIOWrapper)
  : result (list object) :=
  data <- json_load file ;;
  items <- py_iter data ;;
  append_each type_ items [].

(** [from_list_in_file(type_, path)] *)
Definition from_list_in_file (type_ : pytype) (path : string) : result (list object) :=
  json_file <- open_read path BYTE_ENCODING ;;
  data <- json_load json_file ;;
  items <- py_iter data ;;
  append_each type_ items [].

End FileReaders.

(** *** An instance with arrays, to run the file readers on examples

    A file holds a document that is already parsed, or text that is not
    JSON.  A document is one value or an array of values; the values are
    integers, strings and dicts of integers.  A text document is one
    integer, as in [IntDocuments]; [from_dict] makes an instance of the class
    out of the entries of a dict, and fails on every other value. *)
Module ListDocuments.

Inductive value : Type :=
| Int (z : Z)
| Str (s : string)
| Dict (entries : list (string * Z))
| Instance (cls : pytype) (entries : list (string * Z)).

Inductive document : Type :=
| Single (v : value)
| Array (items : list value).

Definition loads (raw_ : raw) : result document :=
  z <- IntDocuments.loads raw_ ;; Ok (Single (Int z)).

Definition dumps (data : document) (indent : Z) (default : document -> result document)
  : result string :=
  match data with
  | Single (Int z) => IntDocuments.dumps z indent IntDocuments.encoder
  | _ => Raise (TypeError "not a text document of this instance")
  end.

Definition encoder (o : document) : result document :=
  Raise (TypeError "Object is not JSON serializable").

Definition parse (o : document) : result document :=
  Raise (TypeError "Parser must be a string or character stream").

Definition build (type_ : pytype) (data : document) (config : Config document)
  : result document :=
  match data with
  | Single (Dict entries) => Ok (Single (Instance type_ entries))
  | _ => Raise (TypeError "object is not subscriptable")
  end.

Definition libraries : Libraries := {|
  object := document;
  json_loads := loads;
  json_dumps := dumps;
  pydantic_encoder := encoder;
  parser_parse := parse;
  from_dict := build
|}.

Definition load (file : option document) : result document :=
  match file with
  | Some d => Ok d
  | None => Raise (JSONDecodeError "Expecting value")
  end.

(** An array yields its items, a dict its keys. *)
Definition iter (data : document) : result (list document) :=
  match data with
  | Array items => Ok (map Single items)
  | Single (Dict entries) => Ok (map (fun kv => Single (Str (fst kv))) entries)
  | Single (Str s) => Ok (map (fun c => Single (Str (String c EmptyString))) (list_ascii_of_string s))
  | Single _ => Raise (TypeError "object is not iterable")
  end.

Definition guardian (id : Z) : value := Dict [("sequence_order"%string, id)].

(** The files of the examples, by path. *)
Definition contents (path : string) : option document :=
  if String.eqb path "guardians.json"
  then Some (Array [guardian 1; guardian 2; guardian 3])
  else if String.eqb path "mixed.json"
  then Some (Array [guardian 1; Int 7; guardian 3])
  else if String.eqb path "empty.json"
  then Some (Array [])
  else None.

Definition files : @FileLibraries libraries :=
  @Build_FileLibraries libraries (option document)
    (fun path _ => Ok (contents path)) load iter.

End ListDocuments.

(** ** Facts about the primitives *)

Lemma Ok_inj {A : Type} (a b : A) : Ok a = Ok b -> a = b.
Proof. congruence. Qed.

Lemma len_nonneg {A : Type} (l : list A) : 0 <= len l.
Proof. unfold len. lia. Qed.

Lemma len_app {A : Type} (l1 l2 : list A) : len (l1 ++ l2) = len l1 + len l2.
Proof. unfold len. rewrite length_app. lia. Qed.

Lemma Z_of_byte_range (b : byte) : 0 <= Z_of_byte b < 256.
Proof.
  unfold Z_of_byte. pose proof (Byte.to_N_bounded b). lia.
Qed.

Lemma Z_of_byte_of_Z (n : Z) : Z_of_byte (byte_of_Z n) = n mod 256.
Proof.
  unfold Z_of_byte, byte_of_Z.
  pose proof (Z.mod_pos_bound n 256 ltac:(lia)) as Hr.
  destruct (Byte.of_N (Z.to_N (n mod 256))) as [b|] eqn:E.
  - apply Byte.to_of_N in E. rewrite E. lia.
  - apply Byte.of_N_None_iff in E. lia.
Qed.

Lemma length_be_digits (k : nat) (n : Z) : List.length (be_digits k n) = k.
Proof.
  revert n. induction k as [|k IH]; intros n; simpl.
  - reflexivity.
  - rewrite length_app, IH. simpl. lia.
Qed.

Lemma length_repeat_bytes (b : bytes) (k : nat) :
  List.length (repeat_bytes b k) = (k * List.length b)%nat.
Proof.
  induction k as [|k IH]; simpl.
  - reflexivity.
  - rewrite length_app, IH. lia.
Qed.

Lemma len_bytes_mul_pad (k : Z) : 0 <= k -> len (bytes_mul _PAD_BYTE k) = k.
Proof.
  intros Hk. unfold len, bytes_mul, _PAD_BYTE.
  rewrite length_repeat_bytes. simpl. lia.
Qed.

(** Reading back the big-endian digits gives the number modulo [256 ^ k]. *)
Lemma int_from_be_digits (k : nat) (n : Z) :
  int_from_bytes (be_digits k n) big = n mod 256 ^ Z.of_nat k.
Proof.
  unfold int_from_bytes. revert n.
  induction k as [|k IH]; intros n.
  - simpl. now rewrite Z.mod_1_r.
  - cbn [be_digits]. rewrite fold_left_app. cbn [fold_left].
    rewrite IH, Z_of_byte_of_Z.
    rewrite Nat2Z.inj_succ, Z.pow_succ_r by lia.
    rewrite Z.rem_mul_r by lia. lia.
Qed.

Lemma int_to_bytes_ok (n : Z) (k : nat) (order : byteorder) :
  0 <= n < 256 ^ Z.of_nat k ->
  int_to_bytes n k order =
  Ok (match order with big => be_digits k n | little => rev (be_digits k n) end).
Proof.
  intros [H0 H1]. unfold int_to_bytes.
  destruct (Z.ltb_spec n 0); [lia|].
  destruct (Z.leb_spec (256 ^ Z.of_nat k) n); [lia|].
  reflexivity.
Qed.

(** The to_bytes / from_bytes round trip on the numbers that fit. *)
Lemma int_from_to_bytes (n : Z) (k : nat) (b : bytes) :
  int_to_bytes n k big = Ok b -> int_from_bytes b big = n /\ len b = Z.of_nat k.
Proof.
  unfold int_to_bytes.
  destruct (Z.ltb_spec n 0); [discriminate|].
  destruct (Z.leb_spec (256 ^ Z.of_nat k) n); [discriminate|].
  intros [= <-]. split.
  - rewrite int_from_be_digits. apply Z.mod_small. lia.
  - unfold len. now rewrite length_be_digits.
Qed.

(** *** Slices *)

Lemma adjust_index_inside (n i : Z) : 0 <= i <= n -> adjust_index n i = i.
Proof.
  intros H. unfold adjust_index. destruct (Z.ltb_spec i 0); lia.
Qed.

Lemma adjust_index_range (n i : Z) : 0 <= n -> 0 <= adjust_index n i <= n.
Proof.
  intros H. unfold adjust_index. destruct (Z.ltb_spec i 0); lia.
Qed.

Lemma len_slice {A : Type} (l : list A) (a b : Z) :
  len (slice l (Some a) (Some b)) =
  Z.max 0 (adjust_index (len l) b - adjust_index (len l) a).
Proof.
  unfold slice.
  pose proof (adjust_index_range (len l) a (len_nonneg l)) as Ha.
  pose proof (adjust_index_range (len l) b (len_nonneg l)) as Hb.
  unfold len in *. rewrite length_firstn, length_skipn. lia.
Qed.

Lemma slice_prefix {A : Type} (l : list A) (k : Z) :
  0 <= k -> slice l None (Some k) = firstn (Z.to_nat k) l.
Proof.
  intros Hk. unfold slice, adjust_index.
  destruct (Z.ltb_spec k 0); [lia|]. rewrite Z.sub_0_r. cbn [Z.to_nat skipn].
  destruct (Z.le_ge_cases k (len l)) as [Hle|Hge].
  - now rewrite Z.min_l by lia.
  - rewrite Z.min_r by lia. unfold len in *.
    rewrite !firstn_all2 by lia. reflexivity.
Qed.

Lemma slice_prefix_all {A : Type} (l : list A) : slice l None (Some (len l)) = l.
Proof.
  rewrite slice_prefix by apply len_nonneg.
  unfold len. rewrite Nat2Z.id. apply firstn_all.
Qed.

(** The middle of a three-part concatenation. *)
Lemma slice_middle {A : Type} (l1 l2 l3 : list A) :
  slice (l1 ++ l2 ++ l3) (Some (len l1)) (Some (len l1 + len l2)) = l2.
Proof.
  unfold slice.
  rewrite !adjust_index_inside
    by (rewrite !len_app; pose proof (len_nonneg l1); pose proof (len_nonneg l2);
        pose proof (len_nonneg l3); lia).
  replace (len l1 + len l2 - len l1) with (len l2) by lia.
  unfold len. rewrite !Nat2Z.id.
  rewrite skipn_app, skipn_all, Nat.sub_diag. cbn [skipn app].
  rewrite firstn_app, firstn_all, Nat.sub_diag. cbn [firstn].
  apply app_nil_r.
Qed.

Lemma slice_prefix_app {A : Type} (l1 l2 : list A) :
  slice (l1 ++ l2) None (Some (len l1)) = l1.
Proof.
  rewrite slice_prefix by apply len_nonneg.
  unfold len. rewrite Nat2Z.id, firstn_app, firstn_all, Nat.sub_diag.
  cbn [firstn]. apply app_nil_r.
Qed.

(** ** The codec on an integer size that fits the indicator *)

Section Codec.

Variable size : Z.
Hypothesis size_range : 0 <= size <= 65535.

Lemma len_indicator (d : Z) : len (be_digits 2 d) = 2.
Proof. unfold len. now rewrite length_be_digits. Qed.

(** A message that fits is laid out as indicator, message, filler. *)
Lemma add_padding_fits (p : bytes) (allow : bool) :
  len p <= size ->
  _add_padding p size allow =
  Ok (be_digits 2 (size - len p) ++ p ++ bytes_mul _PAD_BYTE (size - len p)).
Proof.
  intros Hfit. unfold _add_padding.
  destruct (Z.ltb_spec size (len p)); [lia|]. cbn [bind].
  pose proof (len_nonneg p).
  rewrite int_to_bytes_ok by (change (256 ^ _) with 65536; lia).
  cbn [bind BYTE_ORDER]. now rewrite slice_prefix_all.
Qed.

(** An oversize message is refused unless truncation is allowed. *)
Lemma add_padding_rejects (p : bytes) :
  size < len p ->
  _add_padding p size false = Raise (TruncationError truncation_message).
Proof.
  intros Hbig. unfold _add_padding.
  destruct (Z.ltb_spec size (len p)); [reflexivity | lia].
Qed.

(** With truncation, the first [size] bytes are kept and nothing is added. *)
Lemma add_padding_truncates (p : bytes) :
  size < len p ->
  _add_padding p size true =
  Ok (be_digits 2 0 ++ slice p None (Some size) ++ []).
Proof.
  intros Hbig. unfold _add_padding.
  destruct (Z.ltb_spec size (len p)); [|lia]. cbn [bind].
  rewrite Z.sub_diag. reflexivity.
Qed.

(** Decoding a block whose indicator is [size - len m] gives [m] back,
    whatever follows the message. *)
Lemma remove_padding_block (d : Z) (m rest : bytes) :
  d = size - len m ->
  0 <= d ->
  _remove_padding (be_digits 2 d ++ m ++ rest) size = Ok m.
Proof.
  intros Hd Hpos. unfold _remove_padding.
  pose proof (len_nonneg m).
  pose proof (len_indicator d) as Hind.
  replace PAD_INDICATOR_SIZE with (len (be_digits 2 d)) by exact Hind.
  rewrite slice_prefix_app.
  cbn [BYTE_ORDER]. rewrite int_from_be_digits.
  change (256 ^ Z.of_nat 2) with 65536. rewrite Z.mod_small by lia.
  replace (size + len (be_digits 2 d) - d) with (len (be_digits 2 d) + len m) by lia.
  now rewrite slice_middle.
Qed.

Lemma len_slice_prefix_oversize (p : bytes) :
  size < len p -> len (slice p None (Some size)) = size.
Proof.
  intros Hbig. rewrite slice_prefix by lia.
  unfold len in *. rewrite length_firstn. lia.
Qed.

(** Round trip on the integer size. *)
Lemma add_remove_padding (p : bytes) :
  len p <= size ->
  (block <- _add_padding p size false ;; _remove_padding block size) = Ok p.
Proof.
  intros Hfit. rewrite add_padding_fits by assumption. cbn [bind].
  pose proof (len_nonneg p).
  apply remove_padding_block; lia.
Qed.

Lemma add_remove_padding_truncated (p : bytes) :
  size < len p ->
  (block <- _add_padding p size true ;; _remove_padding block size)
  = Ok (slice p None (Some size)).
Proof.
  intros Hbig. rewrite add_padding_truncates by assumption. cbn [bind].
  pose proof (len_slice_prefix_oversize p Hbig) as Hlen.
  apply remove_padding_block; lia.
Qed.

(** Every block that is produced has [size + 2] bytes. *)
Lemma len_add_padding (p : bytes) (allow : bool) (block : bytes) :
  _add_padding p size allow = Ok block ->
  len block = size + PAD_INDICATOR_SIZE.
Proof.
  destruct (Z.le_gt_cases (len p) size) as [Hfit|Hbig].
  - rewrite add_padding_fits by assumption. intros Heq.
    apply Ok_inj in Heq. subst block.
    pose proof (len_nonneg p).
    rewrite !len_app, len_bytes_mul_pad by lia.
    rewrite (len_indicator (size - len p)). unfold PAD_INDICATOR_SIZE. lia.
  - destruct allow.
    + rewrite add_padding_truncates by assumption. intros Heq.
      apply Ok_inj in Heq. subst block.
      rewrite !len_app, len_slice_prefix_oversize by assumption.
      rewrite (len_indicator 0). change (len (@nil byte)) with 0.
      unfold PAD_INDICATOR_SIZE. lia.
    + rewrite add_padding_rejects by assumption. discriminate.
Qed.

End Codec.

Lemma PaddedDataSize_range (size : PaddedDataSize) : 0 <= size <= 65535.
Proof. destruct size. cbv. split; discriminate. Qed.

Lemma slice_suffix {A : Type} (l1 l2 : list A) :
  slice (l1 ++ l2) (Some (len l1)) None = l2.
Proof.
  unfold slice. pose proof (len_nonneg l1). pose proof (len_nonneg l2).
  rewrite adjust_index_inside by (rewrite len_app; lia).
  rewrite len_app. replace (len l1 + len l2 - len l1) with (len l2) by lia.
  unfold len. rewrite !Nat2Z.id, skipn_app, skipn_all, Nat.sub_diag.
  cbn [skipn app]. apply firstn_all.
Qed.

(** Reading an unsigned integer from [b] stays below [256 ^ len b]. *)
Lemma int_from_bytes_range (b : bytes) :
  0 <= int_from_bytes b big < 256 ^ len b.
Proof.
  unfold int_from_bytes.
  enough (G : forall acc, 0 <= acc ->
            0 <= fold_left (fun a x => a * 256 + Z_of_byte x) b acc
            < (acc + 1) * 256 ^ len b)
    by (specialize (G 0 ltac:(lia)); lia).
  induction b as [|x b IH]; intros acc Hacc.
  - cbn. lia.
  - cbn [fold_left]. pose proof (Z_of_byte_range x).
    specialize (IH (acc * 256 + Z_of_byte x) ltac:(lia)).
    replace (len (x :: b)) with (Z.succ (len b)) by (unfold len; cbn [List.length]; lia).
    rewrite Z.pow_succ_r by apply len_nonneg.
    pose proof (Z.pow_pos_nonneg 256 (len b) ltac:(lia) (len_nonneg b)).
    split; [lia|]. nia.
Qed.

(** ** The codec on the size classes *)

(** C1. Padding round trip: a payload no longer than the capacity of the size
    class, the empty payload included, is encoded without truncation into a
    block that decodes to exactly that payload. *)
Theorem padding_round_trip (size : PaddedDataSize) (p : bytes) :
  len p <= capacity size ->
  exists block,
    _add_padding p size false = Ok block /\ _remove_padding block size = Ok p.
Proof.
  intros Hfit. unfold capacity in Hfit.
  pose proof (add_remove_padding size (PaddedDataSize_range size) p Hfit) as RT.
  destruct (_add_padding p size false) as [block|e]; [|discriminate].
  exists block. split; [reflexivity | exact RT].
Qed.

Lemma padding_round_trip_witness :
  len (@nil byte) <= capacity Bytes_512 /\
  exists block,
    _add_padding [] Bytes_512 false = Ok block /\
    _remove_padding block Bytes_512 = Ok [].
Proof.
  split; [now vm_compute | apply padding_round_trip; now vm_compute].
Defined.

(** C3. Truncation guard: a payload longer than the capacity is refused with
    [TruncationError] when truncation is not allowed, so no block comes out;
    with truncation allowed the block decodes to the first [capacity] bytes
    of the payload. *)
Theorem truncation_guard (size : PaddedDataSize) (p : bytes) :
  capacity size < len p ->
  (exists msg, _add_padding p size false = Raise (TruncationError msg)) /\
  (forall block, _add_padding p size false <> Ok block) /\
  exists block,
    _add_padding p size true = Ok block /\
    _remove_padding block size = Ok (slice p None (Some (capacity size))).
Proof.
  intros Hbig. unfold capacity in *.
  pose proof (add_padding_rejects size p Hbig) as Rej.
  split; [eexists; exact Rej|]. split; [intros block; rewrite Rej; discriminate|].
  pose proof (add_remove_padding_truncated size (PaddedDataSize_range size) p Hbig) as RT.
  destruct (_add_padding p size true) as [block|e]; [|discriminate].
  exists block. split; [reflexivity | exact RT].
Qed.

Lemma truncation_guard_witness :
  capacity Bytes_512 < len (repeat x61 511) /\
  (exists msg,
      _add_padding (repeat x61 511) Bytes_512 false = Raise (TruncationError msg)) /\
  (forall block, _add_padding (repeat x61 511) Bytes_512 false <> Ok block) /\
  exists block,
    _add_padding (repeat x61 511) Bytes_512 true = Ok block /\
    _remove_padding block Bytes_512
    = Ok (slice (repeat x61 511) None (Some (capacity Bytes_512))).
Proof.
  split; [now vm_compute | apply truncation_guard; now vm_compute].
Defined.

(** C5. Fixed output length: whenever the payload fits, or truncation is
    allowed, encoding succeeds and the block has exactly the total size of
    the class, which is 512 bytes: 2 indicator bytes and 510 of capacity. *)
Theorem encoded_block_length (size : PaddedDataSize) (p : bytes) (allow_truncation : bool) :
  len p <= capacity size \/ allow_truncation = true ->
  exists block,
    _add_padding p size allow_truncation = Ok block /\
    len block = block_size size /\
    block_size size = 512 /\
    block_size size = PAD_INDICATOR_SIZE + capacity size /\
    capacity size = 510.
Proof.
  intros Hok. unfold capacity in *.
  pose proof (PaddedDataSize_range size) as Hr.
  assert (exists block, _add_padding p size allow_truncation = Ok block) as [block Hb].
  { destruct (Z.le_gt_cases (len p) size) as [Hfit|Hbig].
    - rewrite (add_padding_fits size Hr p allow_truncation Hfit). eauto.
    - destruct Hok as [Hfit| ->]; [lia|].
      rewrite (add_padding_truncates size p Hbig). eauto. }
  exists block. split; [exact Hb|].
  split; [exact (len_add_padding size Hr p allow_truncation block Hb)|].
  destruct size. repeat split.
Qed.

Lemma encoded_block_length_witness :
  (len abc <= capacity Bytes_512 \/ false = true) /\
  exists block,
    _add_padding abc Bytes_512 false = Ok block /\
    len block = block_size Bytes_512 /\
    block_size Bytes_512 = 512 /\
    block_size Bytes_512 = PAD_INDICATOR_SIZE + capacity Bytes_512 /\
    capacity Bytes_512 = 510.
Proof.
  split; [left; now vm_compute | apply encoded_block_length; left; now vm_compute].
Defined.

(** C10. The [TruncationError] raised for an oversize payload carries the
    literal text with the placeholder [{size}] left as it is: the size of
    the block never appears in the message. *)
Theorem truncation_error_message (size : PaddedDataSize) (p : bytes) :
  capacity size < len p ->
  _add_padding p size false =
  Raise (TruncationError "Padded data exceeds allowed padded data size of {size}.").
Proof.
  intros Hbig. exact (add_padding_rejects size p Hbig).
Qed.

Lemma truncation_error_message_witness :
  capacity Bytes_512 < len (repeat xff 600) /\
  _add_padding (repeat xff 600) Bytes_512 false =
  Raise (TruncationError "Padded data exceeds allowed padded data size of {size}.").
Proof.
  split; [now vm_compute | apply truncation_error_message; now vm_compute].
Defined.

(** C4. The 512-byte scenario: [b"abc"] is encoded into a block of 512
    bytes whose first two bytes are 507 in big-endian, whose bytes 2 to 4 are
    the payload and whose bytes 5 to 511 are 507 zero bytes; the block
    decodes to [b"abc"]. *)
Theorem abc_block_512 :
  exists block,
    _add_padding abc Bytes_512 false = Ok block /\
    len block = 512 /\
    int_to_bytes 507 2 big = Ok (slice block (Some 0) (Some 2)) /\
    slice block (Some 2) (Some 5) = abc /\
    slice block (Some 5) (Some 512) = bytes_mul [x00] 507 /\
    _remove_padding block Bytes_512 = Ok abc.
Proof.
  eexists. split; [vm_compute; reflexivity|].
  repeat split; vm_compute; reflexivity.
Qed.

(** C2, as stated, fails: for [b"abc"] in the 512-byte class the indicator
    reads 507, while the total block length less the payload length is 509. *)
Lemma indicator_total_length_counterexample :
  exists block,
    _add_padding abc Bytes_512 false = Ok block /\
    len abc <= capacity Bytes_512 /\
    len block = block_size Bytes_512 /\
    int_from_bytes (slice block None (Some 2)) BYTE_ORDER = 507 /\
    block_size Bytes_512 - len abc = 509 /\
    int_to_bytes (block_size Bytes_512 - len abc) 2 BYTE_ORDER
    <> Ok (slice block None (Some 2)).
Proof.
  eexists. split; [vm_compute; reflexivity|].
  repeat split; try (vm_compute; reflexivity); now vm_compute.
Qed.

(** C2, amended. For a payload of length [n] within the capacity, the first
    2 bytes of the block are the big-endian unsigned encoding of
    [capacity - n], that is the total block length less 2 less [n]: the
    number of filler bytes alone, which are the zero bytes that follow the
    payload. *)
Theorem indicator_is_filler_count (size : PaddedDataSize) (p block : bytes) :
  len p <= capacity size ->
  _add_padding p size false = Ok block ->
  int_to_bytes (capacity size - len p) 2 BYTE_ORDER
  = Ok (slice block None (Some PAD_INDICATOR_SIZE)) /\
  int_from_bytes (slice block None (Some PAD_INDICATOR_SIZE)) BYTE_ORDER
  = block_size size - PAD_INDICATOR_SIZE - len p /\
  slice block (Some (PAD_INDICATOR_SIZE + len p)) None
  = bytes_mul _PAD_BYTE (capacity size - len p) /\
  len (bytes_mul _PAD_BYTE (capacity size - len p)) = capacity size - len p.
Proof.
  intros Hfit Hb. unfold capacity, block_size in *.
  pose proof (PaddedDataSize_range size) as Hr. pose proof (len_nonneg p) as Hp.
  rewrite (add_padding_fits size Hr p false Hfit) in Hb.
  apply Ok_inj in Hb. subst block.
  assert (Hind : slice (be_digits 2 (size - len p) ++ p
                        ++ bytes_mul _PAD_BYTE (size - len p))
                   None (Some PAD_INDICATOR_SIZE) = be_digits 2 (size - len p)).
  { replace PAD_INDICATOR_SIZE with (len (be_digits 2 (size - len p)))
      by apply len_indicator.
    apply slice_prefix_app. }
  rewrite Hind. repeat split.
  - apply (int_to_bytes_ok (size - len p) 2 big).
    change (256 ^ Z.of_nat 2) with 65536. lia.
  - cbn [BYTE_ORDER]. rewrite int_from_be_digits.
    change (256 ^ Z.of_nat 2) with 65536. rewrite Z.mod_small; lia.
  - replace PAD_INDICATOR_SIZE with (len (be_digits 2 (size - len p)))
      by apply len_indicator.
    rewrite <- len_app, app_assoc. apply slice_suffix.
  - apply len_bytes_mul_pad. lia.
Qed.

Lemma indicator_is_filler_count_witness :
  len abc <= capacity Bytes_512 /\
  _add_padding abc Bytes_512 false
  = Ok ([x01; xfb] ++ abc ++ repeat x00 507) /\
  int_to_bytes (capacity Bytes_512 - len abc) 2 BYTE_ORDER
  = Ok (slice ([x01; xfb] ++ abc ++ repeat x00 507) None (Some PAD_INDICATOR_SIZE)) /\
  int_from_bytes (slice ([x01; xfb] ++ abc ++ repeat x00 507)
                    None (Some PAD_INDICATOR_SIZE)) BYTE_ORDER
  = block_size Bytes_512 - PAD_INDICATOR_SIZE - len abc /\
  slice ([x01; xfb] ++ abc ++ repeat x00 507) (Some (PAD_INDICATOR_SIZE + len abc)) None
  = bytes_mul _PAD_BYTE (capacity Bytes_512 - len abc) /\
  len (bytes_mul _PAD_BYTE (capacity Bytes_512 - len abc))
  = capacity Bytes_512 - len abc.
Proof.
  split; [now vm_compute|]. split; [vm_compute; reflexivity|].
  apply indicator_is_filler_count; [now vm_compute | vm_compute; reflexivity].
Defined.

(** *** Decoding is permissive *)

Lemma slice_from_2 {A : Type} (l : list A) (e : Z) :
  slice l (Some 2) (Some e) =
  firstn (Z.to_nat (adjust_index (len l) e - 2)) (skipn 2 l).
Proof.
  unfold slice. pose proof (len_nonneg l) as Hl.
  pose proof (adjust_index_range (len l) e Hl) as He.
  destruct (Z.le_gt_cases 2 (len l)) as [Hge|Hlt].
  - now rewrite (adjust_index_inside (len l) 2) by lia.
  - replace (adjust_index (len l) 2) with (len l)
      by (unfold adjust_index; cbn; lia).
    unfold len in *. rewrite Nat2Z.id, skipn_all.
    rewrite (skipn_all2 (n := 2)) by lia. now rewrite !firstn_nil.
Qed.

(** C6. Decoding checks nothing and always returns: for every byte string
    and every size, the indicator that is read is some number from 0 to
    65535 and the result is the slice [padded[2 : size + 2 - indicator]],
    taken with the clamping of Python slices.  The result is therefore a
    prefix of [padded[2:]], of the wrong length or empty when the indicator
    does not match the block, and never an exception. *)
Theorem remove_padding_total (padded : bytes) (size : Z) :
  let padding_length := int_from_bytes (slice padded None (Some 2)) BYTE_ORDER in
  let message_end := size + 2 - padding_length in
  _remove_padding padded size = Ok (slice padded (Some 2) (Some message_end)) /\
  0 <= padding_length <= 65535 /\
  slice padded (Some 2) (Some message_end)
  = firstn (Z.to_nat (adjust_index (len padded) message_end - 2)) (skipn 2 padded) /\
  len (slice padded (Some 2) (Some message_end))
  = Z.max 0 (adjust_index (len padded) message_end - Z.min 2 (len padded)) /\
  len (slice padded (Some 2) (Some message_end)) <= Z.max 0 (len padded - 2).
Proof.
  intros padding_length message_end.
  pose proof (len_nonneg padded) as Hl.
  assert (Hlen : len (slice padded (Some 2) (Some message_end))
                 = Z.max 0 (adjust_index (len padded) message_end - Z.min 2 (len padded))).
  { rewrite len_slice. reflexivity. }
  split; [reflexivity|]. split.
  - subst padding_length. change BYTE_ORDER with big.
    pose proof (int_from_bytes_range (slice padded None (Some 2))) as Hr.
    assert (Hk : len (slice padded None (Some 2)) <= 2).
    { rewrite slice_prefix by lia. unfold len. rewrite length_firstn. lia. }
    pose proof (len_nonneg (slice padded None (Some 2))) as Hk0.
    assert (256 ^ len (slice padded None (Some 2)) <= 256 ^ 2)
      by (apply Z.pow_le_mono_r; lia).
    change (256 ^ 2) with 65536 in *. lia.
  - split; [apply slice_from_2|]. split; [exact Hlen|].
    rewrite Hlen.
    pose proof (adjust_index_range (len padded) message_end Hl). lia.
Qed.

(** Corrupted indicators, on the block [00 02 'a' 'b' 'c' 00 00] of a class of
    size 5: an indicator that is too large empties the result, one that is
    too small lets filler through, and a huge one wraps around the end. *)
Example remove_padding_well_formed :
  _remove_padding ([x00; x02] ++ abc ++ [x00; x00]) 5 = Ok abc.
Proof. reflexivity. Qed.

Example remove_padding_indicator_too_large :
  _remove_padding ([x00; x06] ++ abc ++ [x00; x00]) 5 = Ok [].
Proof. reflexivity. Qed.

Example remove_padding_indicator_too_small :
  _remove_padding ([x00; x00] ++ abc ++ [x00; x00]) 5 = Ok (abc ++ [x00; x00]).
Proof. reflexivity. Qed.

Example remove_padding_indicator_wraps :
  _remove_padding ([x00; x0b] ++ abc ++ [x00; x00]) 5 = Ok [x61].
Proof. reflexivity. Qed.

Example remove_padding_short_input :
  _remove_padding [x07] 5 = Ok [] /\ _remove_padding [] 5 = Ok [].
Proof. split; reflexivity. Qed.

(** ** The serializers over the libraries *)

Section SerializerFacts.

Context {lib : Libraries}.

(** An exception of [json.loads] goes through [from_raw] as it is. *)
Lemma from_raw_propagates (type_ : pytype) (raw_ : raw) (e : exception) :
  json_loads raw_ = Raise e -> from_raw type_ raw_ = Raise e.
Proof. intros Hload. unfold from_raw. now rewrite Hload. Qed.

(** A value comes out of [from_raw] only through a successful parse. *)
Lemma from_raw_ok_inv (type_ : pytype) (raw_ : raw) (v : object) :
  from_raw type_ raw_ = Ok v ->
  exists data, json_loads raw_ = Ok data /\ from_dict type_ data _config = Ok v.
Proof.
  unfold from_raw. destruct (json_loads raw_) as [data|e]; cbn [bind].
  - intros Hv. now exists data.
  - discriminate.
Qed.

(** Every block that [padded_encode] returns holds the whole serialized
    text: the truncating branch of [_add_padding] is never taken. *)
Lemma padded_encode_lossless (data : object) (size : PaddedDataSize) (block : bytes) :
  padded_encode data size = Ok block ->
  exists text,
    to_raw data = Ok text /\
    len (str_encode text BYTE_ENCODING) <= capacity size /\
    _remove_padding block size = Ok (str_encode text BYTE_ENCODING).
Proof.
  unfold padded_encode, capacity.
  destruct (to_raw data) as [text|e]; cbn [bind]; [|discriminate].
  intros Hb. exists text. split; [reflexivity|].
  destruct (Z.le_gt_cases (len (str_encode text BYTE_ENCODING)) size) as [Hfit|Hbig].
  - split; [exact Hfit|].
    pose proof (add_remove_padding size (PaddedDataSize_range size) _ Hfit) as RT.
    rewrite Hb in RT. exact RT.
  - rewrite (add_padding_rejects size _ Hbig) in Hb. discriminate.
Qed.

End SerializerFacts.

(** C9. [padded_encode] never truncates: it calls [_add_padding] with
    [allow_truncation] at its default, [False], so a value whose serialized
    bytes exceed the capacity makes it raise [TruncationError] and no block,
    truncated or not, comes out. *)
Theorem padded_encode_never_truncates {lib : Libraries}
    (data : object) (size : PaddedDataSize) (text : string) :
  to_raw data = Ok text ->
  capacity size < len (str_encode text BYTE_ENCODING) ->
  padded_encode data size = _add_padding (str_encode text BYTE_ENCODING) size false /\
  padded_encode data size = Raise (TruncationError truncation_message) /\
  (forall block, padded_encode data size <> Ok block).
Proof.
  intros Htext Hbig. unfold padded_encode, capacity in *.
  rewrite Htext. cbn [bind].
  rewrite (add_padding_rejects size _ Hbig).
  repeat split. intros block. discriminate.
Qed.

Lemma padded_encode_never_truncates_witness :
  exists text,
    @to_raw IntDocuments.libraries (10 ^ 510) = Ok text /\
    capacity Bytes_512 < len (str_encode text BYTE_ENCODING) /\
    @padded_encode IntDocuments.libraries (10 ^ 510) Bytes_512
    = Raise (TruncationError truncation_message).
Proof.
  eexists. split; [vm_compute; reflexivity|]. split; [now vm_compute|].
  refine (proj1 (proj2 (@padded_encode_never_truncates IntDocuments.libraries
                          (10 ^ 510) Bytes_512 _ _ _))).
  - vm_compute. reflexivity.
  - now vm_compute.
Defined.

(** ** Further properties of the codec *)

Lemma byte_of_Z_of_byte (x : byte) : byte_of_Z (Z_of_byte x) = x.
Proof.
  unfold byte_of_Z. pose proof (Z_of_byte_range x) as Hx.
  rewrite Z.mod_small by exact Hx. unfold Z_of_byte.
  now rewrite N2Z.id, Byte.of_to_N.
Qed.

(** The layout of a block, for any integer size whose filler count fits the
    indicator. *)
Lemma add_padding_layout (size : Z) (p : bytes) (allow : bool) :
  len p <= size -> size - len p <= 65535 ->
  _add_padding p size allow =
  Ok (be_digits 2 (size - len p) ++ p ++ bytes_mul _PAD_BYTE (size - len p)).
Proof.
  intros Hfit Hind. unfold _add_padding.
  destruct (Z.ltb_spec size (len p)); [lia|]. cbn [bind].
  rewrite int_to_bytes_ok by (change (256 ^ _) with 65536; lia).
  cbn [bind BYTE_ORDER]. now rewrite slice_prefix_all.
Qed.

Lemma remove_padding_layout (size d : Z) (m rest : bytes) :
  d = size - len m -> 0 <= d <= 65535 ->
  _remove_padding (be_digits 2 d ++ m ++ rest) size = Ok m.
Proof.
  intros Hd Hr. unfold _remove_padding.
  pose proof (len_nonneg m).
  assert (Hind : len (be_digits 2 d) = 2)
    by (unfold len; now rewrite length_be_digits).
  replace PAD_INDICATOR_SIZE with (len (be_digits 2 d)) by exact Hind.
  rewrite slice_prefix_app.
  change BYTE_ORDER with big. rewrite int_from_be_digits.
  change (256 ^ Z.of_nat 2) with 65536. rewrite Z.mod_small by lia.
  replace (size + len (be_digits 2 d) - d) with (len (be_digits 2 d) + len m) by lia.
  now rewrite slice_middle.
Qed.

(** X1. On a size class, [_add_padding] raises exactly when truncation is
    not allowed and the payload exceeds the capacity, and what it raises is
    then the [TruncationError] with the fixed text: the indicator never
    overflows. *)
Theorem add_padding_raise_iff
    (size : PaddedDataSize) (p : bytes) (allow_truncation : bool) (e : exception) :
  _add_padding p size allow_truncation = Raise e <->
  allow_truncation = false /\ capacity size < len p /\
  e = TruncationError truncation_message.
Proof.
  unfold capacity. pose proof (PaddedDataSize_range size) as Hr.
  destruct (Z.le_gt_cases (len p) size) as [Hfit|Hbig].
  - rewrite (add_padding_fits size Hr p allow_truncation Hfit).
    split; [discriminate | intros (_ & Hlt & _); lia].
  - destruct allow_truncation.
    + rewrite (add_padding_truncates size p Hbig).
      split; [discriminate | intros (Hf & _); discriminate].
    + rewrite (add_padding_rejects size p Hbig). split.
      * intros Heq. repeat split; [lia | congruence].
      * intros (_ & _ & ->). reflexivity.
Qed.

(** For a payload that fits, the flag [allow_truncation] makes no
    difference, whatever the integer size. *)
Lemma allow_truncation_irrelevant (size : Z) (p : bytes) :
  len p <= size ->
  _add_padding p size true = _add_padding p size false.
Proof.
  intros Hfit. unfold _add_padding.
  destruct (Z.ltb_spec size (len p)); [lia | reflexivity].
Qed.

(** X2. Encoding with truncation is encoding, without truncation, of the
    first [size] bytes of the payload: the block keeps no trace of the bytes
    that were dropped, nor of the fact that some were. *)
Theorem add_padding_truncation_is_prefix (size : PaddedDataSize) (p : bytes) :
  _add_padding p size true = _add_padding (slice p None (Some (capacity size))) size false.
Proof.
  unfold capacity. pose proof (PaddedDataSize_range size) as Hr.
  destruct (Z.le_gt_cases (len p) size) as [Hfit|Hbig].
  - rewrite slice_prefix by lia.
    rewrite firstn_all2 by (unfold len in Hfit; lia).
    now apply allow_truncation_irrelevant.
  - pose proof (len_slice_prefix_oversize size Hr p Hbig) as Hlen.
    rewrite (add_padding_truncates size p Hbig).
    rewrite (add_padding_fits size Hr _ false) by lia.
    rewrite Hlen, Z.sub_diag. reflexivity.
Qed.

(** X3. Encoding without truncation is injective: two payloads with the
    same block are the same payload. *)
Theorem add_padding_injective (size : PaddedDataSize) (p q : bytes) :
  len p <= capacity size ->
  _add_padding p size false = _add_padding q size false ->
  p = q.
Proof.
  unfold capacity. intros Hfit Heq. pose proof (PaddedDataSize_range size) as Hr.
  pose proof (add_remove_padding size Hr p Hfit) as RTp.
  destruct (Z.le_gt_cases (len q) size) as [Hq|Hq].
  - pose proof (add_remove_padding size Hr q Hq) as RTq.
    rewrite Heq in RTp. rewrite RTp in RTq. now apply Ok_inj in RTq.
  - rewrite (add_padding_rejects size q Hq) in Heq.
    rewrite (add_padding_fits size Hr p false Hfit) in Heq. discriminate.
Qed.

Lemma add_padding_injective_witness :
  len abc <= capacity Bytes_512 /\
  _add_padding abc Bytes_512 false
  = _add_padding (list_byte_of_string "abc") Bytes_512 false /\
  abc = list_byte_of_string "abc".
Proof.
  split; [now vm_compute|]. split; [reflexivity|].
  apply (add_padding_injective Bytes_512); [now vm_compute | reflexivity].
Defined.

(** X4. Decoding looks at the indicator and the payload only: whatever
    follows the payload, zero filler or not, of the right length or not, the
    payload comes back. *)
Theorem remove_padding_ignores_tail (size : PaddedDataSize) (m indicator rest : bytes) :
  len m <= capacity size ->
  int_to_bytes (capacity size - len m) 2 BYTE_ORDER = Ok indicator ->
  _remove_padding (indicator ++ m ++ rest) size = Ok m.
Proof.
  unfold capacity. intros Hfit Hind.
  pose proof (PaddedDataSize_range size) as Hr. pose proof (len_nonneg m) as Hm.
  rewrite int_to_bytes_ok in Hind by (change (256 ^ _) with 65536; lia).
  apply Ok_inj in Hind. subst indicator.
  apply remove_padding_layout; lia.
Qed.

Lemma remove_padding_ignores_tail_witness :
  len abc <= capacity Bytes_512 /\
  int_to_bytes (capacity Bytes_512 - len abc) 2 BYTE_ORDER = Ok [x01; xfb] /\
  _remove_padding ([x01; xfb] ++ abc ++ [xff; x2a]) Bytes_512 = Ok abc.
Proof.
  split; [now vm_compute|]. split; [reflexivity|].
  apply remove_padding_ignores_tail; [now vm_compute | reflexivity].
Defined.

(** X5. From a block of the right length, whatever its bytes, decoding
    returns at most [size] bytes. *)
Theorem remove_padding_bounded (size : Z) (padded r : bytes) :
  0 <= size ->
  len padded = size + PAD_INDICATOR_SIZE ->
  _remove_padding padded size = Ok r ->
  len r <= size.
Proof.
  intros Hsize Hlen Hr. unfold _remove_padding in Hr.
  apply Ok_inj in Hr. subst r.
  pose proof (int_from_bytes_range (slice padded None (Some PAD_INDICATOR_SIZE))) as Hpl.
  change BYTE_ORDER with big.
  set (pl := int_from_bytes (slice padded None (Some PAD_INDICATOR_SIZE)) big) in *.
  rewrite len_slice, Hlen. unfold adjust_index, PAD_INDICATOR_SIZE in *.
  destruct (Z.ltb_spec (size + 2 - pl) 0); destruct (Z.ltb_spec 2 0); lia.
Qed.

Lemma remove_padding_bounded_witness :
  0 <= 5 /\
  len ([x00; x0b] ++ abc ++ [x00; x00]) = 5 + PAD_INDICATOR_SIZE /\
  _remove_padding ([x00; x0b] ++ abc ++ [x00; x00]) 5 = Ok [x61] /\
  len [x61] <= 5.
Proof.
  split; [now vm_compute|]. split; [reflexivity|]. split; [reflexivity|].
  apply (remove_padding_bounded 5 ([x00; x0b] ++ abc ++ [x00; x00]));
    [now vm_compute | reflexivity | reflexivity].
Defined.

(** Decoding a block of the right length whose indicator is in range. *)
Lemma remove_padding_in_range (size : Z) (padded : bytes) :
  len padded = size + PAD_INDICATOR_SIZE ->
  int_from_bytes (slice padded None (Some PAD_INDICATOR_SIZE)) BYTE_ORDER <= size ->
  _remove_padding padded size
  = Ok (firstn (Z.to_nat
                  (size - int_from_bytes (slice padded None (Some PAD_INDICATOR_SIZE))
                                         BYTE_ORDER))
               (skipn 2 padded)).
Proof.
  intros Hlen Hpl.
  pose proof (int_from_bytes_range (slice padded None (Some PAD_INDICATOR_SIZE))) as Hr.
  change BYTE_ORDER with big in *.
  set (pl := int_from_bytes (slice padded None (Some PAD_INDICATOR_SIZE)) big) in *.
  unfold _remove_padding. change BYTE_ORDER with big. fold pl.
  change PAD_INDICATOR_SIZE with 2 in *.
  rewrite slice_from_2, Hlen, adjust_index_inside by lia.
  do 2 f_equal. lia.
Qed.

Lemma len_firstn_skipn_2 (t : bytes) (k : Z) :
  0 <= k -> k + 2 <= len t -> len (firstn (Z.to_nat k) (skipn 2 t)) = k.
Proof.
  intros Hk Hlen. unfold len in *. rewrite length_firstn, length_skipn. lia.
Qed.

(** X6. Decoding trusts the indicator: from a block of the right length
    whose indicator [k] is at most [size], it returns the [size - k] bytes
    that follow the indicator, whatever they are. *)
Theorem remove_padding_trusts_indicator (size : Z) (padded : bytes) :
  len padded = size + PAD_INDICATOR_SIZE ->
  int_from_bytes (slice padded None (Some PAD_INDICATOR_SIZE)) BYTE_ORDER <= size ->
  _remove_padding padded size
  = Ok (firstn (Z.to_nat
                  (size - int_from_bytes (slice padded None (Some PAD_INDICATOR_SIZE))
                                         BYTE_ORDER))
               (skipn 2 padded)) /\
  len (firstn (Z.to_nat
                 (size - int_from_bytes (slice padded None (Some PAD_INDICATOR_SIZE))
                                        BYTE_ORDER))
              (skipn 2 padded))
  = size - int_from_bytes (slice padded None (Some PAD_INDICATOR_SIZE)) BYTE_ORDER.
Proof.
  intros Hlen Hpl. split.
  - exact (remove_padding_in_range size padded Hlen Hpl).
  - pose proof (int_from_bytes_range
                  (slice padded None (Some PAD_INDICATOR_SIZE))) as Hr.
    change BYTE_ORDER with big in *.
    apply len_firstn_skipn_2; [lia|].
    rewrite Hlen. unfold PAD_INDICATOR_SIZE in *. lia.
Qed.

Lemma remove_padding_trusts_indicator_witness :
  len ([x00; x01] ++ abc ++ [x2a; x2a]) = 5 + PAD_INDICATOR_SIZE /\
  int_from_bytes (slice ([x00; x01] ++ abc ++ [x2a; x2a]) None (Some PAD_INDICATOR_SIZE))
                 BYTE_ORDER <= 5 /\
  _remove_padding ([x00; x01] ++ abc ++ [x2a; x2a]) 5 = Ok (abc ++ [x2a]).
Proof.
  split; [reflexivity|]. split; [now vm_compute|].
  refine (proj1 (remove_padding_trusts_indicator 5
                   ([x00; x01] ++ abc ++ [x2a; x2a]) _ _));
    [reflexivity | now vm_compute].
Defined.

(** X7. An integer size whose filler count does not fit the two bytes of
    the indicator cannot be encoded: with a payload more than 65535 bytes
    short of the size, [_add_padding] raises [OverflowError], with or without
    truncation. *)
Theorem add_padding_indicator_overflow (size : Z) (p : bytes) (allow_truncation : bool) :
  65535 < size - len p ->
  _add_padding p size allow_truncation = Raise (OverflowError "int too big to convert").
Proof.
  intros Hbig. unfold _add_padding. pose proof (len_nonneg p).
  destruct (Z.ltb_spec size (len p)); [lia|]. cbn [bind].
  unfold int_to_bytes.
  destruct (Z.ltb_spec (size - len p) 0); [lia|].
  change (256 ^ Z.of_nat (Z.to_nat PAD_INDICATOR_SIZE)) with 65536.
  destruct (Z.leb_spec 65536 (size - len p)); [reflexivity | lia].
Qed.

Lemma add_padding_indicator_overflow_witness :
  65535 < 65539 - len abc /\
  _add_padding abc 65539 false = Raise (OverflowError "int too big to convert").
Proof.
  split; [now vm_compute | apply add_padding_indicator_overflow; now vm_compute].
Defined.

(** X8. The round trip does not depend on the size being a member of the
    enumeration: for every integer size and every payload that fits and
    leaves at most 65535 bytes of filler, the block has [size + 2] bytes and
    decodes to the payload. *)
Theorem add_remove_padding_any_size (size : Z) (p : bytes) :
  len p <= size ->
  size - len p <= 65535 ->
  exists block,
    _add_padding p size false = Ok block /\
    len block = size + PAD_INDICATOR_SIZE /\
    _remove_padding block size = Ok p.
Proof.
  intros Hfit Hind. pose proof (len_nonneg p) as Hp.
  rewrite (add_padding_layout size p false Hfit Hind).
  eexists. split; [reflexivity|]. split.
  - rewrite !len_app, len_bytes_mul_pad by lia.
    replace (len (be_digits 2 (size - len p))) with 2
      by (unfold len; now rewrite length_be_digits).
    unfold PAD_INDICATOR_SIZE. lia.
  - apply remove_padding_layout; lia.
Qed.

Lemma add_remove_padding_any_size_witness :
  len abc <= 1022 /\
  1022 - len abc <= 65535 /\
  exists block,
    _add_padding abc 1022 false = Ok block /\
    len block = 1022 + PAD_INDICATOR_SIZE /\
    _remove_padding block 1022 = Ok abc.
Proof.
  split; [now vm_compute|]. split; [now vm_compute|].
  apply add_remove_padding_any_size; now vm_compute.
Defined.

Lemma byte_of_Z_mod (n : Z) : byte_of_Z (n mod 256) = byte_of_Z n.
Proof. unfold byte_of_Z. now rewrite Z.mod_mod by lia. Qed.

(** The two digits of a number that was read from two bytes are those bytes. *)
Lemma be_digits_of_two_bytes (a b : byte) :
  be_digits 2 (int_from_bytes [a; b] big) = [a; b].
Proof.
  pose proof (Z_of_byte_range a) as Ha. pose proof (Z_of_byte_range b) as Hb.
  replace (int_from_bytes [a; b] big) with (Z_of_byte a * 256 + Z_of_byte b)
    by (unfold int_from_bytes; cbn [fold_left]; lia).
  cbn [be_digits app].
  rewrite Z.div_add_l, (Z.div_small (Z_of_byte b)), Z.add_0_r by lia.
  rewrite byte_of_Z_of_byte.
  rewrite <- (byte_of_Z_mod (Z_of_byte a * 256 + Z_of_byte b)).
  rewrite Z.add_comm, Z.mod_add, Z.mod_small by lia.
  now rewrite byte_of_Z_of_byte.
Qed.

Lemma slice_from {A : Type} (l : list A) (i : Z) :
  0 <= i <= len l -> slice l (Some i) None = skipn (Z.to_nat i) l.
Proof.
  intros Hi. unfold slice. rewrite adjust_index_inside by exact Hi.
  apply firstn_all2. unfold len in *. rewrite length_skipn. lia.
Qed.

(** X9. Encoding undoes decoding on the blocks that are well formed: when
    a block has the length of its class, an indicator [k] within the
    capacity and [k] zero bytes at its end, encoding what it decodes to
    gives the block back. *)
Theorem add_padding_of_decoded (size : PaddedDataSize) (padded r : bytes) :
  len padded = block_size size ->
  int_from_bytes (slice padded None (Some PAD_INDICATOR_SIZE)) BYTE_ORDER
  <= capacity size ->
  slice padded
    (Some (block_size size
           - int_from_bytes (slice padded None (Some PAD_INDICATOR_SIZE)) BYTE_ORDER))
    None
  = bytes_mul _PAD_BYTE
      (int_from_bytes (slice padded None (Some PAD_INDICATOR_SIZE)) BYTE_ORDER) ->
  _remove_padding padded size = Ok r ->
  _add_padding r size false = Ok padded.
Proof.
  unfold block_size, capacity. intros Hlen Hpl Hfill Hr.
  pose proof (PaddedDataSize_range size) as Hsize.
  pose proof (remove_padding_in_range size padded Hlen Hpl) as Hdec.
  rewrite Hdec in Hr. apply Ok_inj in Hr.
  pose proof (int_from_bytes_range (slice padded None (Some PAD_INDICATOR_SIZE))) as Hr0.
  change BYTE_ORDER with big in *.
  assert (Hlr : len (firstn (Z.to_nat
                               (size - int_from_bytes
                                         (slice padded None (Some PAD_INDICATOR_SIZE)) big))
                            (skipn 2 padded))
                = size - int_from_bytes (slice padded None (Some PAD_INDICATOR_SIZE)) big).
  { apply len_firstn_skipn_2; [lia|]. rewrite Hlen. unfold PAD_INDICATOR_SIZE in *. lia. }
  change PAD_INDICATOR_SIZE with 2 in *.
  destruct padded as [|a [|b t]];
    [unfold len in Hlen; cbn in Hlen; lia | unfold len in Hlen; cbn in Hlen; lia |].
  assert (Hpre : slice (a :: b :: t) None (Some 2) = [a; b]).
  { rewrite slice_prefix by lia. reflexivity. }
  rewrite Hpre in *.
  set (pl := int_from_bytes [a; b] big) in *.
  assert (Ht : len t = size).
  { unfold len in *. cbn [List.length] in Hlen. lia. }
  rewrite slice_from in Hfill by (rewrite Hlen; lia).
  replace (Z.to_nat (size + 2 - pl)) with (S (S (Z.to_nat (size - pl)))) in Hfill by lia.
  cbn [skipn] in Hfill, Hr, Hlr.
  rewrite (add_padding_fits size Hsize r false) by (rewrite <- Hr, Hlr; lia).
  f_equal. rewrite <- Hr at 1 3. rewrite Hlr.
  replace (size - (size - pl)) with pl by lia.
  rewrite <- Hfill. subst pl. rewrite be_digits_of_two_bytes.
  rewrite <- Hr. cbn [app]. now rewrite firstn_skipn.
Qed.

Lemma add_padding_of_decoded_witness :
  len ([x01; xfb] ++ abc ++ repeat x00 507) = block_size Bytes_512 /\
  _remove_padding ([x01; xfb] ++ abc ++ repeat x00 507) Bytes_512 = Ok abc /\
  _add_padding abc Bytes_512 false = Ok ([x01; xfb] ++ abc ++ repeat x00 507).
Proof.
  split; [vm_compute; reflexivity|]. split; [vm_compute; reflexivity|].
  apply (add_padding_of_decoded Bytes_512 ([x01; xfb] ++ abc ++ repeat x00 507));
    [vm_compute; reflexivity | now vm_compute | vm_compute; reflexivity
    | vm_compute; reflexivity].
Defined.

(** ** Further properties of the serializers *)

(** X10. The padding is transparent to the serializers: when the text of
    [data] fits the capacity, [padded_encode] returns a block of the length
    of the class, and [padded_decode] of that block is [from_raw] of the
    encoded text, neither more nor less. *)
Theorem padded_decode_encode {lib : Libraries}
    (type_ : pytype) (data : object) (size : PaddedDataSize) (text : string) :
  to_raw data = Ok text ->
  len (str_encode text BYTE_ENCODING) <= capacity size ->
  exists block,
    padded_encode data size = Ok block /\
    len block = block_size size /\
    padded_decode type_ block size
    = from_raw type_ (raw_bytes (str_encode text BYTE_ENCODING)).
Proof.
  unfold capacity, block_size. intros Htext Hfit.
  pose proof (PaddedDataSize_range size) as Hr.
  unfold padded_encode. rewrite Htext. cbn [bind].
  pose proof (add_remove_padding size Hr _ Hfit) as RT.
  destruct (_add_padding (str_encode text BYTE_ENCODING) size false)
    as [block|e] eqn:Hb; [|discriminate].
  cbn [bind] in RT. exists block. split; [reflexivity|]. split.
  - exact (len_add_padding size Hr _ false block Hb).
  - unfold padded_decode. rewrite RT. reflexivity.
Qed.

Lemma padded_decode_encode_witness :
  @to_raw IntDocuments.libraries 2026 = Ok "2026"%string /\
  len (str_encode "2026" BYTE_ENCODING) <= capacity Bytes_512 /\
  exists block,
    @padded_encode IntDocuments.libraries 2026 Bytes_512 = Ok block /\
    len block = block_size Bytes_512 /\
    @padded_decode IntDocuments.libraries ElementModQ block Bytes_512
    = @from_raw IntDocuments.libraries ElementModQ
        (raw_bytes (str_encode "2026" BYTE_ENCODING)).
Proof.
  split; [reflexivity|]. split; [now vm_compute|].
  apply (@padded_decode_encode IntDocuments.libraries); [reflexivity | now vm_compute].
Defined.

Section FileReaderFacts.

Context {lib : Libraries} {files : FileLibraries}.

(** The loop returns the list it started from followed by the converted
    items, in their order, exactly when every item converts. *)
Lemma append_each_ok_iff (type_ : pytype) (items ls out : list object) :
  append_each type_ items ls = Ok out <->
  exists vs,
    Forall2 (fun item v => from_dict type_ item _config = Ok v) items vs /\
    out = ls ++ vs.
Proof.
  revert ls. induction items as [|item rest IH]; intros ls; cbn [append_each].
  - split.
    + intros Heq. apply Ok_inj in Heq. exists []. split; [constructor|].
      now rewrite app_nil_r.
    + intros (vs & Hall & ->). inversion Hall; subst. now rewrite app_nil_r.
  - destruct (from_dict type_ item _config) as [v|e] eqn:Hv; cbn [bind].
    + rewrite IH. split.
      * intros (vs & Hall & ->). exists (v :: vs). split; [now constructor|].
        now rewrite <- app_assoc.
      * intros (vs & Hall & ->). inversion Hall as [|? v' ? vs' Hv' Hall']; subst.
        rewrite Hv in Hv'. apply Ok_inj in Hv'. subst v'.
        exists vs'. split; [exact Hall'|]. now rewrite <- app_assoc.
    + split; [discriminate|].
      intros (vs & Hall & _). inversion Hall; subst. congruence.
Qed.

(** The loop stops at the first item that does not convert. *)
Lemma append_each_first_failure
    (type_ : pytype) (pre post : list object) (bad : object) (vs ls : list object)
    (e : exception) :
  Forall2 (fun item v => from_dict type_ item _config = Ok v) pre vs ->
  from_dict type_ bad _config = Raise e ->
  append_each type_ (pre ++ bad :: post) ls = Raise e.
Proof.
  intros Hall Hbad. revert ls.
  induction Hall as [|item v pre vs Hv Hall IH]; intros ls; cbn [app append_each].
  - now rewrite Hbad.
  - rewrite Hv. cbn [bind]. apply IH.
Qed.

End FileReaderFacts.

(** X11. [from_list_in_file_wrapper] returns a list exactly when the file
    loads, the loaded value can be iterated and every item converts; the
    list then holds the converted items, one for each item and in the order
    of the file.  [from_list_in_file] is the same on the file that [open]
    returns. *)
Theorem from_list_in_file_ok_iff {lib : Libraries} {files : FileLibraries}
    (type_ : pytype) (file : TextIOWrapper) (path : string) (out : list object) :
  (from_list_in_file_wrapper type_ file = Ok out <->
   exists data items,
     json_load file = Ok data /\
     py_iter data = Ok items /\
     Forall2 (fun item v => from_dict type_ item _config = Ok v) items out) /\
  (from_list_in_file type_ path = Ok out <->
   exists json_file,
     open_read path BYTE_ENCODING = Ok json_file /\
     from_list_in_file_wrapper type_ json_file = Ok out).
Proof.
  assert (W : forall f,
             from_list_in_file_wrapper type_ f = Ok out <->
             exists data items,
               json_load f = Ok data /\
               py_iter data = Ok items /\
               Forall2 (fun item v => from_dict type_ item _config = Ok v) items out).
  { intros f. unfold from_list_in_file_wrapper.
    destruct (json_load f) as [data|e] eqn:Hload; cbn [bind].
    - destruct (py_iter data) as [items|e] eqn:Hiter; cbn [bind].
      + rewrite append_each_ok_iff. split.
        * intros (vs & Hall & ->). exists data, items.
          split; [reflexivity|]. split; [exact Hiter | exact Hall].
        * intros (d & it & Hd & Hit & Hall).
          apply Ok_inj in Hd. subst d. rewrite Hiter in Hit.
          apply Ok_inj in Hit. subst it. now exists out.
      + split; [discriminate|]. intros (d & it & Hd & Hit & _).
        apply Ok_inj in Hd. subst d. rewrite Hiter in Hit. discriminate.
    - split; [discriminate|]. intros (d & it & Hd & _). discriminate. }
  split; [apply W|].
  unfold from_list_in_file.
  destruct (open_read path BYTE_ENCODING) as [json_file|e]; cbn [bind].
  - split.
    + intros Hout. now exists json_file.
    + intros (f & Hf & Hout). apply Ok_inj in Hf. now subst f.
  - split; [discriminate|]. intros (f & Hf & _). discriminate.
Qed.

(** X12. The list readers are all or nothing: when an item of the file does
    not convert and the items before it do, the call raises the exception of
    that item, whatever comes after it, and no list is returned. *)
Theorem from_list_in_file_first_failure {lib : Libraries} {files : FileLibraries}
    (type_ : pytype) (file : TextIOWrapper) (data : object)
    (pre post : list object) (bad : object) (vs : list object) (e : exception) :
  json_load file = Ok data ->
  py_iter data = Ok (pre ++ bad :: post) ->
  Forall2 (fun item v => from_dict type_ item _config = Ok v) pre vs ->
  from_dict type_ bad _config = Raise e ->
  from_list_in_file_wrapper type_ file = Raise e /\
  (forall path,
      open_read path BYTE_ENCODING = Ok file ->
      from_list_in_file type_ path = Raise e).
Proof.
  intros Hload Hiter Hall Hbad.
  assert (W : from_list_in_file_wrapper type_ file = Raise e).
  { unfold from_list_in_file_wrapper. rewrite Hload. cbn [bind].
    rewrite Hiter. cbn [bind].
    exact (append_each_first_failure type_ pre post bad vs [] e Hall Hbad). }
  split; [exact W|]. intros path Hopen.
  unfold from_list_in_file. rewrite Hopen. cbn [bind]. exact W.
Qed.

Lemma from_list_in_file_first_failure_witness :
  @from_list_in_file_wrapper ListDocuments.libraries ListDocuments.files
    ElementModP (ListDocuments.contents "mixed.json")
  = Raise (TypeError "object is not subscriptable") /\
  @from_list_in_file ListDocuments.libraries ListDocuments.files
    ElementModP "mixed.json"
  = Raise (TypeError "object is not subscriptable").
Proof.
  destruct (@from_list_in_file_first_failure
              ListDocuments.libraries ListDocuments.files ElementModP
              (ListDocuments.contents "mixed.json")
              (ListDocuments.Array
                 [ListDocuments.guardian 1; ListDocuments.Int 7;
                  ListDocuments.guardian 3])
              [ListDocuments.Single (ListDocuments.guardian 1)]
              [ListDocuments.Single (ListDocuments.guardian 3)]
              (ListDocuments.Single (ListDocuments.Int 7))
              [ListDocuments.Single
                 (ListDocuments.Instance ElementModP [("sequence_order"%string, 1)])]
              (TypeError "object is not subscriptable")) as [W P];
    [reflexivity | reflexivity | repeat constructor | reflexivity |].
  split; [exact W | exact (P "mixed.json"%string eq_refl)].
Defined.

(** The list readers on the files of the examples. *)
Example from_list_in_file_guardians :
  @from_list_in_file ListDocuments.libraries ListDocuments.files
    ElementModP "guardians.json"
  = Ok (map (fun id => ListDocuments.Single
                         (ListDocuments.Instance ElementModP
                            [("sequence_order"%string, id)]))
            [1; 2; 3]).
Proof. reflexivity. Qed.

Example from_list_in_file_empty :
  @from_list_in_file ListDocuments.libraries ListDocuments.files
    ElementModP "empty.json" = Ok [].
Proof. reflexivity. Qed.

(** X13. The failures of [padded_encode] are those of [to_raw], passed on
    as they are, and the [TruncationError] for a text whose bytes exceed the
    capacity; there is no other. *)
Theorem padded_encode_raise_iff {lib : Libraries}
    (data : object) (size : PaddedDataSize) (e : exception) :
  padded_encode data size = Raise e <->
  to_raw data = Raise e \/
  exists text,
    to_raw data = Ok text /\
    capacity size < len (str_encode text BYTE_ENCODING) /\
    e = TruncationError truncation_message.
Proof.
  unfold padded_encode, capacity. pose proof (PaddedDataSize_range size) as Hr.
  destruct (to_raw data) as [text|e0]; cbn [bind].
  - destruct (Z.le_gt_cases (len (str_encode text BYTE_ENCODING)) size) as [Hfit|Hbig].
    + rewrite (add_padding_fits size Hr _ false Hfit). split; [discriminate|].
      intros [Hd | (t & Ht & Hlt & _)]; [discriminate|].
      apply Ok_inj in Ht. subst t. lia.
    + rewrite (add_padding_rejects size _ Hbig). split.
      * intros Heq. right. exists text. repeat split; [exact Hbig | congruence].
      * intros [Hd | (t & _ & _ & ->)]; [discriminate | reflexivity].
  - split.
    + intros Heq. left. congruence.
    + intros [Hd | (t & Ht & _)]; [congruence | discriminate].
Qed.

Example padded_encode_unserializable :
  @padded_encode ListDocuments.libraries (ListDocuments.Array []) Bytes_512
  = Raise (TypeError "not a text document of this instance").
Proof. reflexivity. Qed.
